(** * Verification of [.github/shared.py]

    A shallow embedding of the workflow test-selection helper: the
    module-level constants [GITHUB_DIR], [WORKFLOW_PATH] and [REMAINDER], and
    the functions [get_project_root], [read_workflow] and the generator
    [get_test_selections].

    Python objects are modelled by the data they carry: the result of
    [yaml.safe_load] is a tree of type [yaml], a raised exception is a value
    of type [exn], a computation that may raise has type [result], and the
    generator returned by [get_test_selections] is a state machine driven by
    [next]. The operating-system and library facts the code depends on (the
    environment variables, the working directory, the files, the YAML loader)
    are the fields of a [World]. *)

From stdpp Require Import gmap strings list.
From Stdlib Require Import Ascii ZArith.

Local Open Scope Z_scope.
Local Open Scope nat_scope.

(** ** Python values and exceptions *)

(** The objects [yaml.safe_load] builds, one constructor for each type its
    safe constructors return: [None], [bool], [int], [float] (kept by its
    literal), [str], [bytes] (from [!!binary]), [date] and [datetime] (kept
    by their text), [list], [tuple] (the items of [!!omap] and [!!pairs]
    lists), [set] and [dict].

    A [str] is kept as its UTF-8 encoding, and [bytes] as they are: a Rocq
    [string] is a sequence of bytes. A [dict] is the list of its entries and
    a [set] the list of its members, in the order in which Python iterates
    them; a dict holds a key once, and no statement below needs more of the
    list than that order. *)
#[warning="-register-all"]
Inductive yaml : Type :=
  | YNull
  | YBool (b : bool)
  | YInt (n : Z)
  | YFloat (lit : string)
  | YStr (s : string)
  | YBytes (data : string)
  | YTimestamp (iso : string)
  | YSeq (items : list yaml)
  | YTuple (items : list yaml)
  | YSet (members : list yaml)
  | YMap (entries : list (yaml * yaml)).

(** The exception classes met in the module, each with the argument that
    identifies it. The file name of a [FileNotFoundError] is absent when the
    call that failed took none ([os.getcwd]). *)
Inductive exn : Type :=
  | FileNotFoundError (filename : option string)
  | NotADirectoryError (filename : string)
  | IsADirectoryError (filename : string)
  | UnicodeDecodeError
  | YAMLError (problem : string)
  | KeyError (key : string)
  | TypeError
  | Exception (msg : string).

(** A computation that either raises or returns. *)
Definition result (A : Type) : Type := exn + A.

Definition raise {A : Type} (e : exn) : result A := inl e.
Definition ret {A : Type} (a : A) : result A := inr a.

Definition bind {A B : Type} (m : result A) (k : A -> result B) : result B :=
  match m with
  | inl e => inl e
  | inr a => k a
  end.

Notation "'let!' x ':=' m 'in' k" := (bind m (fun x => k))
  (at level 10, x name, m at level 100, k at level 200).

(** [v == s] for a str [s]: only a str with the same characters is equal. *)
Definition py_eq_str (v : yaml) (s : string) : bool :=
  match v with
  | YStr t => String.eqb t s
  | _ => false
  end.

(** [d[key]] on the entries of a dict, for a str key. *)
Fixpoint dict_get (entries : list (yaml * yaml)) (key : string) : option yaml :=
  match entries with
  | [] => None
  | (k, v) :: rest => if py_eq_str k key then Some v else dict_get rest key
  end.

(** [v[key]] for a str key: a dict raises [KeyError] on a missing key; a
    list, a tuple, a str and bytes take integer indices only and every other
    object is not subscriptable, which are all [TypeError]. *)
Definition getitem (v : yaml) (key : string) : result yaml :=
  match v with
  | YMap entries =>
      match dict_get entries key with
      | Some x => ret x
      | None => raise (KeyError key)
      end
  | _ => raise TypeError
  end.

(** In UTF-8 the bytes [10xxxxxx] continue a character; any other byte
    starts one. *)
Definition is_continuation (c : ascii) : bool :=
  match c with
  | Ascii _ _ _ _ _ _ b6 b7 => b7 && negb b6
  end.

(** The encoded characters of [s], each with its continuation bytes, and
    before them the continuation bytes that [s] starts with (none in the
    encoding of a str). *)
Fixpoint code_points (s : string) : string * list string :=
  match s with
  | EmptyString => (EmptyString, [])
  | String c s' =>
      let (tail, items) := code_points s' in
      if is_continuation c then (String c tail, items)
      else (EmptyString, String c tail :: items)
  end.

(** The characters of a str, each a str of length one. *)
Definition chars (s : string) : list yaml :=
  let (tail, items) := code_points s in
  map YStr (match tail with
            | EmptyString => items
            | String _ _ => tail :: items
            end).

(** The values of [bytes], each an int from 0 to 255. *)
Fixpoint byte_values (data : string) : list yaml :=
  match data with
  | EmptyString => []
  | String c data' => YInt (Z.of_nat (nat_of_ascii c)) :: byte_values data'
  end.

(** [iter(v)], as the [for] statement calls it: the items of a list or of a
    tuple, the members of a set, the characters of a str, the values of
    bytes, the keys of a dict; any other object is not iterable. *)
Definition py_iter (v : yaml) : result (list yaml) :=
  match v with
  | YSeq items => ret items
  | YTuple items => ret items
  | YSet members => ret members
  | YStr s => ret (chars s)
  | YBytes data => ret (byte_values data)
  | YMap entries => ret (map fst entries)
  | YNull | YBool _ | YInt _ | YFloat _ | YTimestamp _ => raise TypeError
  end.

(** ** [os.path] on POSIX

    The functions of [posixpath] that the module constants go through. The
    separator is ["/"]. *)
Module posixpath.

Definition is_sep (c : ascii) : bool := Ascii.eqb c "/"%char.

(** [p.startswith('/')], which is also [isabs p]. *)
Definition isabs (p : string) : bool :=
  match p with
  | String c _ => is_sep c
  | EmptyString => false
  end.

Definition is_empty (p : string) : bool :=
  match p with
  | EmptyString => true
  | String _ _ => false
  end.

(** [p.endswith('/')] *)
Fixpoint endswith_sep (p : string) : bool :=
  match p with
  | EmptyString => false
  | String c EmptyString => is_sep c
  | String _ p' => endswith_sep p'
  end.

(** [join(a, b)]: an absolute [b] replaces what came before it. *)
Definition join (a b : string) : string :=
  if isabs b then b
  else if is_empty a || endswith_sep a then a +:+ b
  else a +:+ "/" +:+ b.

(** [p.split('/')] *)
Fixpoint split_sep (p : string) : list string :=
  match p with
  | EmptyString => [EmptyString]
  | String c p' =>
      if is_sep c then EmptyString :: split_sep p'
      else match split_sep p' with
           | [] => [String c EmptyString]
           | comp :: comps => String c comp :: comps
           end
  end.

(** ['/'.join(comps)] *)
Fixpoint join_sep (comps : list string) : string :=
  match comps with
  | [] => EmptyString
  | [comp] => comp
  | comp :: comps' => comp +:+ "/" +:+ join_sep comps'
  end.

(** ['/' * n] *)
Fixpoint seps (n : nat) : string :=
  match n with
  | O => EmptyString
  | S n' => String "/" (seps n')
  end.

(** The number of slashes [normpath] keeps in front: two when the path
    starts with exactly two, else one for an absolute path, else none. *)
Definition initial_slashes (p : string) : nat :=
  match p with
  | String c1 (String c2 (String c3 _)) =>
      if is_sep c1 then (if is_sep c2 && negb (is_sep c3) then 2 else 1) else 0
  | String c1 (String c2 EmptyString) =>
      if is_sep c1 then (if is_sep c2 then 2 else 1) else 0
  | String c1 EmptyString => if is_sep c1 then 1 else 0
  | EmptyString => 0
  end.

(** The loop of [normpath] over the components; [new_comps] is kept with
    its last element first. *)
Fixpoint normpath_comps (slashes : nat) (comps new_comps : list string)
  : list string :=
  match comps with
  | [] => rev new_comps
  | comp :: comps' =>
      if String.eqb comp "" || String.eqb comp "." then
        normpath_comps slashes comps' new_comps
      else if negb (String.eqb comp "..")
              || (Nat.eqb slashes 0 && match new_comps with [] => true | _ => false end)
              || match new_comps with last :: _ => String.eqb last ".." | [] => false end
      then normpath_comps slashes comps' (comp :: new_comps)
      else match new_comps with
           | _ :: popped => normpath_comps slashes comps' popped
           | [] => normpath_comps slashes comps' new_comps
           end
  end.

Definition normpath (p : string) : string :=
  if is_empty p then "."
  else
    let slashes := initial_slashes p in
    let path := seps slashes +:+ join_sep (normpath_comps slashes (split_sep p) []) in
    if is_empty path then "." else path.

(** [abspath(p)] in a process whose working directory is [cwd]. *)
Definition abspath (cwd p : string) : string :=
  normpath (if isabs p then p else join cwd p).

(** [p[:p.rfind('/') + 1]] *)
Fixpoint head_of (p : string) : string :=
  match p with
  | EmptyString => EmptyString
  | String c p' =>
      let h := head_of p' in
      if is_sep c then String c h
      else if is_empty h then EmptyString else String c h
  end.

Fixpoint all_seps (p : string) : bool :=
  match p with
  | EmptyString => true
  | String c p' => is_sep c && all_seps p'
  end.

(** [p.rstrip('/')] *)
Fixpoint rstrip_sep (p : string) : string :=
  match p with
  | EmptyString => EmptyString
  | String c p' =>
      let r := rstrip_sep p' in
      if is_sep c && is_empty r then EmptyString else String c r
  end.

Definition dirname (p : string) : string :=
  let head := head_of p in
  if negb (is_empty head) && negb (all_seps head) then rstrip_sep head
  else head.

End posixpath.

(** ** [pathlib] on POSIX *)
Module pathlib.

(** A path object after parsing: its root (one of [""], ["/"], ["//"]) and
    its components. The drive is always empty on POSIX. Two paths are equal
    when these are. *)
Record PurePath : Type := mkPath { root : string; parts : list string }.

(** [splitroot]: the root and what follows it. Three or more leading
    slashes count as one. *)
Definition splitroot (p : string) : string * string :=
  match p with
  | String c1 rest1 =>
      if posixpath.is_sep c1 then
        match rest1 with
        | String c2 rest2 =>
            if posixpath.is_sep c2 then
              if posixpath.isabs rest2 then ("/", rest1) else ("//", rest2)
            else ("/", rest1)
        | EmptyString => ("/", rest1)
        end
      else ("", p)
  | EmptyString => ("", p)
  end.

Definition is_component (comp : string) : bool :=
  negb (String.eqb comp "") && negb (String.eqb comp ".").

(** [Path(s)]: empty and ["."] components are dropped. *)
Definition Path (s : string) : PurePath :=
  if posixpath.is_empty s then mkPath "" []
  else
    let (r, rel) := splitroot s in
    mkPath r (filter (fun comp => is_component comp = true) (posixpath.split_sep rel)).

(** [p / key]: a [key] with a root replaces [p]. *)
Definition truediv (p : PurePath) (key : string) : PurePath :=
  let q := Path key in
  if posixpath.is_empty (root q) then mkPath (root p) (parts p ++ parts q)
  else q.

(** [str(p)], which is what [open] receives. *)
Definition fspath (p : PurePath) : string :=
  let s := root p +:+ posixpath.join_sep (parts p) in
  if posixpath.is_empty s then "." else s.

End pathlib.

(** ** The process environment *)

(** A file system of directories and regular files that the process may
    read, without symbolic links: a tree, a directory listing its entries
    by name. *)
#[warning="-register-all"]
Inductive fsnode : Type :=
  | RegularFile (content : string)
  | Directory (entries : list (string * fsnode)).

(** What the module observes of the world it runs in: [os.environ]; the
    working directory when the generator runs, absent when that directory
    has been removed; the module's [__file__] and the working directory when
    the module was imported (both read once, by the module-level
    assignments); the root directory of the file system; and what
    [yaml.safe_load] does with an open text file of given bytes, which is to
    return the document or to raise ([UnicodeDecodeError] when the bytes do
    not decode, a [YAMLError] when the text is not valid YAML). *)
Record World : Type := mkWorld {
  environ : gmap string string;
  getcwd : option string;
  module_file : string;
  import_cwd : string;
  files : fsnode;
  safe_load : string -> result yaml
}.

(** [os.getenv(key, default)] *)
Definition getenv (w : World) (key fallback : string) : string :=
  default fallback (environ w !! key).

(** [os.getcwd()], which raises when the working directory is gone. *)
Definition os_getcwd (w : World) : result string :=
  match getcwd w with
  | Some cwd => ret cwd
  | None => raise (FileNotFoundError None)
  end.

Fixpoint lookup_entry (entries : list (string * fsnode)) (name : string)
  : option fsnode :=
  match entries with
  | [] => None
  | (n, node) :: rest =>
      if String.eqb n name then Some node else lookup_entry rest name
  end.

(** Path resolution, one component at a time, from [node] whose ancestors
    are [above] (the nearest first): a component is looked up in a
    directory only, [".."] goes to the parent (the root is its own parent),
    and a missing entry is an error. [name] is the file name reported. *)
Fixpoint walk (name : string) (comps : list string)
    (above : list fsnode) (node : fsnode) : result (list fsnode * fsnode) :=
  match comps with
  | [] => ret (above, node)
  | comp :: comps' =>
      match node with
      | RegularFile _ => raise (NotADirectoryError name)
      | Directory entries =>
          if String.eqb comp ".." then
            match above with
            | [] => walk name comps' [] node
            | parent :: above' => walk name comps' above' parent
            end
          else
            match lookup_entry entries comp with
            | None => raise (FileNotFoundError (Some name))
            | Some child => walk name comps' (node :: above) child
            end
      end
  end.

(** Where the resolution of [path] starts: the root for a path with a root,
    else the working directory. *)
Definition start_of (w : World) (name : string) (path : pathlib.PurePath)
  : result (list fsnode * fsnode) :=
  if posixpath.is_empty (pathlib.root path) then
    match getcwd w with
    | Some cwd => walk name (pathlib.parts (pathlib.Path cwd)) [] (files w)
    | None => raise (FileNotFoundError (Some name))
    end
  else ret ([], files w).

(** What is found at [path]. *)
Definition resolve (w : World) (path : pathlib.PurePath) : result fsnode :=
  let name := pathlib.fspath path in
  let! start := start_of w name path in
  let! found := walk name (pathlib.parts path) (fst start) (snd start) in
  ret (snd found).


(** [open(path)] followed by reading the whole file. *)
Definition open_read (w : World) (path : pathlib.PurePath) : result string :=
  let! node := resolve w path in
  match node with
  | RegularFile content => ret content
  | Directory _ => raise (IsADirectoryError (pathlib.fspath path))
  end.

(** ** The module [shared] *)

Definition GITHUB_DIR (w : World) : string :=
  posixpath.dirname (posixpath.abspath (import_cwd w) (module_file w)).

Definition WORKFLOW_PATH (w : World) : string :=
  GITHUB_DIR w +:+ "/workflows/continuous-integration.yml".

Definition REMAINDER : string := "REMAINDER".

(** The default [os.getcwd()] is an argument of [os.getenv]: it is evaluated
    first, whether or not the variable is set. *)
Definition get_project_root (w : World) : result pathlib.PurePath :=
  let! cwd := os_getcwd w in
  ret (pathlib.Path (getenv w "PROJECT_ROOT" cwd)).

Definition read_workflow (w : World) (workflow_path : pathlib.PurePath)
  : result yaml :=
  let! f := open_read w workflow_path in
  safe_load w f.

(** [project_root / WORKFLOW_PATH], the path that [get_test_selections]
    hands to [read_workflow]. *)
Definition workflow_path (w : World) (project_root : pathlib.PurePath)
  : pathlib.PurePath :=
  pathlib.truediv project_root (WORKFLOW_PATH w).

(** The value bound to [workflow] in [get_test_selections]. *)
Definition load_workflow (w : World) : result yaml :=
  let! project_root := get_project_root w in
  read_workflow w (workflow_path w project_root).

(** [workflow['jobs']['scala_unit_tests']['strategy']['matrix']['tests']] *)
Definition selections_of (workflow : yaml) : result yaml :=
  let! jobs := getitem workflow "jobs" in
  let! scala_unit_tests := getitem jobs "scala_unit_tests" in
  let! strategy := getitem scala_unit_tests "strategy" in
  let! matrix := getitem strategy "matrix" in
  getitem matrix "tests".

(** The value bound to [selections] in [get_test_selections]. *)
Definition load_selections (w : World) : result yaml :=
  let! workflow := load_workflow w in
  selections_of workflow.

(** The body of [get_test_selections] up to the first turn of the loop: the
    [for] statement starts by asking [selections] for an iterator. *)
Definition prologue (w : World) : result (list yaml) :=
  let! selections := load_selections w in
  py_iter selections.

(** What one turn of the loop body does with [test_sel]. *)
Inductive body_step : Type :=
  | Continue (remainder_found : bool)
  | YieldValue (v : yaml)
  | RaiseExn (e : exn).

Definition duplicate_message : string :=
  "Two " +:+ REMAINDER +:+ " test selections found".

Definition loop_body (remainder_found : bool) (test_sel : yaml) : body_step :=
  if py_eq_str test_sel REMAINDER then
    if negb remainder_found then Continue true
    else RaiseExn (Exception duplicate_message)
  else YieldValue test_sel.

(** A generator object: not started, suspended at the [yield] with the items
    the iterator has not handed out yet and the value of [remainder_found],
    or finished (returned or raised). *)
Inductive generator : Type :=
  | Created
  | Suspended (it : list yaml) (remainder_found : bool)
  | Finished.

(** What a call of [next] gives its caller. *)
Inductive outcome : Type :=
  | Yield (v : yaml)
  | StopIteration
  | Raise (e : exn).

(** Run the loop until the next [yield], the end of the items or a raise. *)
Fixpoint resume (it : list yaml) (remainder_found : bool)
  : outcome * generator :=
  match it with
  | [] => (StopIteration, Finished)
  | test_sel :: it' =>
      match loop_body remainder_found test_sel with
      | Continue found => resume it' found
      | YieldValue v => (Yield v, Suspended it' remainder_found)
      | RaiseExn e => (Raise e, Finished)
      end
  end.

(** [next(g)] *)
Definition next (w : World) (g : generator) : outcome * generator :=
  match g with
  | Created =>
      match prologue w with
      | inl e => (Raise e, Finished)
      | inr it => resume it false
      end
  | Suspended it remainder_found => resume it remainder_found
  | Finished => (StopIteration, Finished)
  end.

(** Calling the function runs none of its body: it makes a generator. *)
Definition get_test_selections : generator := Created.

(** The outcomes of the first [n] calls of [next] on [g]. *)
Fixpoint trace (w : World) (n : nat) (g : generator) : list outcome :=
  match n with
  | O => []
  | S n' => let (o, g') := next w g in o :: trace w n' g'
  end.

(** The generator after [n] calls of [next]. *)
Fixpoint advance (w : World) (n : nat) (g : generator) : generator :=
  match n with
  | O => g
  | S n' => advance w n' (snd (next w g))
  end.

(** [list(g)]: the values yielded until the generator stops, unless it
    raises. [None] when [fuel] calls of [next] do not reach the end. *)
Fixpoint to_list (w : World) (fuel : nat) (g : generator)
  : option (result (list yaml)) :=
  match fuel with
  | O => None
  | S fuel' =>
      match next w g with
      | (Yield v, g') =>
          match to_list w fuel' g' with
          | Some (inr vs) => Some (inr (v :: vs))
          | other => other
          end
      | (StopIteration, _) => Some (inr [])
      | (Raise e, _) => Some (inl e)
      end
  end.

(** The loop seen one item at a time, with the values yielded so far kept in
    [produced]. *)
Record loop_state : Type := mkLoop {
  remainder_found : bool;
  produced : list yaml
}.

Definition loop_iteration (st : loop_state) (test_sel : yaml)
  : result loop_state :=
  match loop_body (remainder_found st) test_sel with
  | Continue found => ret (mkLoop found (produced st))
  | YieldValue v => ret (mkLoop (remainder_found st) (produced st ++ [v]))
  | RaiseExn e => raise e
  end.

Fixpoint run_loop (st : loop_state) (items : list yaml) : result loop_state :=
  match items with
  | [] => ret st
  | test_sel :: items' =>
      let! st' := loop_iteration st test_sel in
      run_loop st' items'
  end.

Definition loop_start : loop_state := mkLoop false [].

(** ** Vocabulary of the specification *)

Definition sentinel : yaml := YStr REMAINDER.

(** The number of items equal to the sentinel. *)
Definition count_sentinel (tests : list yaml) : nat :=
  length (filter (fun v => py_eq_str v REMAINDER = true) tests).

(** The items that are not the sentinel, in order. *)
Definition selections (tests : list yaml) : list yaml :=
  filter (fun v => py_eq_str v REMAINDER = false) tests.

(** [l.insert(i, x)] for [i] within the list. *)
Definition insert_at (i : nat) (x : yaml) (l : list yaml) : list yaml :=
  take i l ++ x :: drop i l.

(** The workflow document holds [tests] under the key path. *)
Definition tests_doc (tests : yaml) : yaml :=
  YMap [(YStr "jobs",
    YMap [(YStr "scala_unit_tests",
      YMap [(YStr "strategy",
        YMap [(YStr "matrix",
          YMap [(YStr "tests", tests)])])])])].



(** The values among the outcomes of some calls of [next]. *)
Fixpoint yielded (os : list outcome) : list yaml :=
  match os with
  | [] => []
  | Yield v :: os' => v :: yielded os'
  | _ :: os' => yielded os'
  end.

(** The same module and files in a process started with another environment
    and working directory. *)
Definition with_environment
    (w : World) (env : gmap string string) (cwd : option string) : World :=
  {| environ := env;
     getcwd := cwd;
     module_file := module_file w;
     import_cwd := import_cwd w;
     files := files w;
     safe_load := safe_load w |}.

(** A string of continuation bytes only. *)
Fixpoint all_continuation (s : string) : bool :=
  match s with
  | EmptyString => true
  | String c s' => is_continuation c && all_continuation s'
  end.

(** A string without a separator, and a path component that [normpath]
    and [Path] keep as it is: not empty, without a separator, neither ["."]
    nor [".."]. *)
Fixpoint no_sep (s : string) : bool :=
  match s with
  | EmptyString => true
  | String c s' => negb (posixpath.is_sep c) && no_sep s'
  end.

Definition plain_component (comp : string) : bool :=
  negb (posixpath.is_empty comp) && no_sep comp
  && negb (String.eqb comp ".") && negb (String.eqb comp "..").

(** ** Sample worlds

    A checkout of the repository under [/home/ci/rchain], whose workflow file
    the loader turns into [doc], run with the environment [env]. *)
Definition repo : string := "/home/ci/rchain".

Definition repo_dir : list string := ["home"; "ci"; "rchain"].

(** The tree that holds [leaf] under the directories [comps]. *)
Fixpoint tree_of (comps : list string) (leaf : fsnode) : fsnode :=
  match comps with
  | [] => leaf
  | comp :: comps' => Directory [(comp, tree_of comps' leaf)]
  end.

(** A file of one byte that is not UTF-8. *)
Definition bad_bytes : string := String (ascii_of_nat 255) EmptyString.

(** A stand-in for the loader, enough to run the samples: it returns [doc]
    for one text, and raises for the bytes that do not decode and for any
    other text. *)
Definition sample_loader (doc : yaml) (text : string) : result yaml :=
  if String.eqb text "jobs: ..." then ret doc
  else if String.eqb text bad_bytes then raise UnicodeDecodeError
  else raise (YAMLError "expected the node content, but found '<stream end>'").

Definition sample_world (env : list (string * string)) (doc : yaml) : World :=
  {| environ := list_to_map env;
     getcwd := Some repo;
     module_file := repo +:+ "/.github/shared.py";
     import_cwd := repo;
     files := tree_of (repo_dir ++ [".github"; "workflows";
                                     "continuous-integration.yml"])
                (RegularFile "jobs: ...");
     safe_load := sample_loader doc |}.

Definition world_of (tests : list yaml) : World :=
  sample_world [] (tests_doc (YSeq tests)).






(** The module installed under [/opt/ci/.github], run with [PROJECT_ROOT]
    naming another checkout, which has the workflow file. *)
Definition other_root : string := "/srv/build/rchain".

Definition relocated_world : World :=
  {| environ := {[ "PROJECT_ROOT" := other_root ]};
     getcwd := Some "/";
     module_file := "/opt/ci/.github/shared.py";
     import_cwd := "/";
     files := tree_of ["srv"; "build"; "rchain"; ".github"; "workflows";
                       "continuous-integration.yml"]
                (RegularFile "jobs: ...");
     safe_load := sample_loader (tests_doc (YSeq [YStr "a"; YStr "b"])) |}.

(** [PROJECT_ROOT] set to the empty string. *)
Definition empty_root_world : World :=
  sample_world [("PROJECT_ROOT", "")] (tests_doc (YSeq [])).

(** [PROJECT_ROOT] set, in a process whose working directory was removed. *)
Definition gone_cwd_world : World :=
  with_environment (world_of []) {[ "PROJECT_ROOT" := repo ]} None.

(** * Properties *)

(** ** Equality with the sentinel *)

Lemma py_eq_str_true (v : yaml) (s : string) :
  py_eq_str v s = true <-> v = YStr s.
Proof.
  destruct v; simpl; try (split; [discriminate | congruence]).
  rewrite String.eqb_eq. split; congruence.
Qed.

Lemma py_eq_str_false (v : yaml) (s : string) :
  py_eq_str v s = false <-> v <> YStr s.
Proof.
  rewrite <- py_eq_str_true. destruct (py_eq_str v s); split; congruence.
Qed.

Lemma count_sentinel_nil : count_sentinel [] = 0.
Proof. reflexivity. Qed.

Lemma count_sentinel_cons (x : yaml) (l : list yaml) :
  count_sentinel (x :: l) =
  (if py_eq_str x REMAINDER then 1 else 0) + count_sentinel l.
Proof.
  unfold count_sentinel. rewrite filter_cons.
  destruct (py_eq_str x REMAINDER); reflexivity.
Qed.

Lemma count_sentinel_app (l k : list yaml) :
  count_sentinel (l ++ k) = count_sentinel l + count_sentinel k.
Proof. unfold count_sentinel. rewrite filter_app, length_app. reflexivity. Qed.

Lemma selections_cons (x : yaml) (l : list yaml) :
  selections (x :: l) =
  if py_eq_str x REMAINDER then selections l else x :: selections l.
Proof.
  unfold selections. rewrite filter_cons.
  destruct (py_eq_str x REMAINDER); reflexivity.
Qed.

Lemma selections_app (l k : list yaml) :
  selections (l ++ k) = selections l ++ selections k.
Proof. apply filter_app. Qed.

Lemma selections_clean (l : list yaml) :
  count_sentinel l = 0 -> selections l = l.
Proof.
  induction l as [|x l IH]; [reflexivity|].
  rewrite count_sentinel_cons, selections_cons.
  destruct (py_eq_str x REMAINDER); [discriminate|].
  simpl. intros H. rewrite IH; [reflexivity | exact H].
Qed.

Lemma count_sentinel_selections (l : list yaml) :
  count_sentinel (selections l) = 0.
Proof.
  induction l as [|x l IH]; [reflexivity|].
  rewrite selections_cons.
  destruct (py_eq_str x REMAINDER) eqn:E; [exact IH|].
  rewrite count_sentinel_cons, E. exact IH.
Qed.

(** A list with one sentinel, at index [i], splits around it into two lists
    without any. *)
Lemma single_sentinel_split (tests : list yaml) (i : nat) :
  count_sentinel tests = 1 ->
  tests !! i = Some sentinel ->
  tests = take i tests ++ sentinel :: drop (S i) tests
  /\ count_sentinel (take i tests) = 0
  /\ count_sentinel (drop (S i) tests) = 0.
Proof.
  intros Hc Hi.
  assert (Hsplit : tests = take i tests ++ sentinel :: drop (S i) tests)
    by (symmetry; apply take_drop_middle; exact Hi).
  split; [exact Hsplit|].
  rewrite Hsplit in Hc.
  rewrite count_sentinel_app, count_sentinel_cons in Hc.
  simpl in Hc. lia.
Qed.

(** A list with at least one sentinel has a first one. *)
Lemma first_sentinel (tests : list yaml) :
  0 < count_sentinel tests ->
  exists pre post,
    tests = pre ++ sentinel :: post /\ count_sentinel pre = 0.
Proof.
  induction tests as [|x l IH]; [rewrite count_sentinel_nil; lia|].
  rewrite count_sentinel_cons.
  destruct (py_eq_str x REMAINDER) eqn:E.
  - intros _. apply py_eq_str_true in E. subst x.
    exists [], l. split; reflexivity.
  - simpl. intros H. destruct (IH H) as (pre & post & -> & Hpre).
    exists (x :: pre), post. split; [reflexivity|].
    rewrite count_sentinel_cons, E. exact Hpre.
Qed.

(** A list with two sentinels or more has a first and a second one. *)
Lemma second_sentinel (tests : list yaml) :
  2 <= count_sentinel tests ->
  exists pre mid post,
    tests = pre ++ sentinel :: mid ++ sentinel :: post
    /\ count_sentinel pre = 0 /\ count_sentinel mid = 0.
Proof.
  intros H.
  destruct (first_sentinel tests) as (pre & tail & -> & Hpre); [lia|].
  rewrite count_sentinel_app, count_sentinel_cons in H. simpl in H.
  destruct (first_sentinel tail) as (mid & post & -> & Hmid); [lia|].
  exists pre, mid, post. auto.
Qed.

(** ** One turn of the loop *)

Lemma loop_body_ordinary (found : bool) (x : yaml) :
  x <> sentinel -> loop_body found x = YieldValue x.
Proof.
  intros H. apply py_eq_str_false in H. unfold loop_body. rewrite H. reflexivity.
Qed.

Lemma loop_body_sentinel (found : bool) :
  loop_body found sentinel =
  if found then RaiseExn (Exception duplicate_message) else Continue true.
Proof. destruct found; reflexivity. Qed.

Lemma resume_ordinary (x : yaml) (it : list yaml) (found : bool) :
  py_eq_str x REMAINDER = false ->
  resume (x :: it) found = (Yield x, Suspended it found).
Proof. intros H. simpl. unfold loop_body. rewrite H. reflexivity. Qed.

Lemma resume_first (it : list yaml) :
  resume (sentinel :: it) false = resume it true.
Proof. reflexivity. Qed.

Lemma resume_second (it : list yaml) :
  resume (sentinel :: it) true = (Raise (Exception duplicate_message), Finished).
Proof. reflexivity. Qed.

(** ** The loop, item by item *)

(** The loop runs through [items] exactly when they hold, with the flag
    counted in, at most one sentinel; it then has yielded the other items
    and the flag records whether a sentinel was met. *)
Lemma run_loop_spec (items : list yaml) :
  forall (found : bool) (acc : list yaml),
    run_loop (mkLoop found acc) items =
    if decide (count_sentinel items + Nat.b2n found <= 1)
    then inr (mkLoop (found || bool_decide (0 < count_sentinel items))
                (acc ++ selections items))
    else inl (Exception duplicate_message).
Proof.
  induction items as [|x items IH]; intros found acc.
  - simpl. rewrite orb_false_r, app_nil_r.
    destruct found; reflexivity.
  - rewrite count_sentinel_cons, selections_cons.
    cbn [run_loop]. unfold loop_iteration, loop_body. cbn [remainder_found produced].
    destruct (py_eq_str x REMAINDER) eqn:E.
    + destruct found; cbn [negb bind raise ret].
      * destruct (decide _) as [H|H]; [simpl in H; lia | reflexivity].
      * rewrite IH. simpl.
        repeat destruct (decide _); try lia; reflexivity.
    + cbn [bind ret]. rewrite IH. simpl.
      rewrite <- app_assoc. reflexivity.
Qed.

Lemma run_loop_app (st : loop_state) (l k : list yaml) :
  run_loop st (l ++ k) = (let! st' := run_loop st l in run_loop st' k).
Proof.
  revert st. induction l as [|x l IH]; intros st; [reflexivity|].
  simpl. destruct (loop_iteration st x) as [e|st']; simpl; [reflexivity|].
  apply IH.
Qed.

(** ** Successive calls of [next] *)

Section Calls.

Variable w : World.

Lemma next_created (sel : yaml) (it : list yaml) :
  load_selections w = inr sel ->
  py_iter sel = inr it ->
  next w get_test_selections = next w (Suspended it false).
Proof.
  intros Hsel Hit. simpl. unfold prologue. rewrite Hsel. simpl.
  rewrite Hit. reflexivity.
Qed.


Lemma trace_next_eq (g g' : generator) (n : nat) :
  next w g = next w g' -> trace w n g = trace w n g'.
Proof. intros H. destruct n; simpl; [reflexivity | rewrite H; reflexivity]. Qed.

Lemma trace_created (tests : list yaml) (n : nat) :
  load_selections w = inr (YSeq tests) ->
  trace w n get_test_selections = trace w n (Suspended tests false).
Proof.
  intros H. apply trace_next_eq. eapply next_created; [exact H | reflexivity].
Qed.

Lemma trace_finished (n : nat) :
  trace w n Finished = replicate n StopIteration.
Proof. induction n as [|n IH]; simpl; [reflexivity | rewrite IH; reflexivity]. Qed.

Lemma trace_first (it : list yaml) (n : nat) :
  trace w n (Suspended (sentinel :: it) false) = trace w n (Suspended it true).
Proof. apply trace_next_eq. reflexivity. Qed.

Lemma trace_second (it : list yaml) (n : nat) :
  trace w (S n) (Suspended (sentinel :: it) true) =
  Raise (Exception duplicate_message) :: replicate n StopIteration.
Proof. simpl. rewrite trace_finished. reflexivity. Qed.

Lemma trace_exhausted (found : bool) (n : nat) :
  trace w (S n) (Suspended [] found) = replicate (S n) StopIteration.
Proof. simpl. rewrite trace_finished. reflexivity. Qed.

(** Items without a sentinel come out one per call, in order. *)
Lemma trace_ordinary (pre rest : list yaml) (found : bool) (n : nat) :
  count_sentinel pre = 0 ->
  trace w (length pre + n) (Suspended (pre ++ rest) found) =
  map Yield pre ++ trace w n (Suspended rest found).
Proof.
  induction pre as [|x pre IH]; [reflexivity|].
  rewrite count_sentinel_cons.
  destruct (py_eq_str x REMAINDER) eqn:E; [discriminate|].
  simpl. intros H. unfold loop_body. rewrite E.
  rewrite IH; [reflexivity | exact H].
Qed.

(** The items of a prefix that the loop runs through come out in order,
    whichever way its sentinel is placed. *)
Lemma trace_prefix (prefix rest : list yaml) :
  forall (found : bool) (n : nat),
    count_sentinel prefix + Nat.b2n found <= 1 ->
    trace w (length (selections prefix) + n) (Suspended (prefix ++ rest) found) =
    map Yield (selections prefix)
    ++ trace w n (Suspended rest (found || bool_decide (0 < count_sentinel prefix))).
Proof.
  induction prefix as [|x prefix IH]; intros found n.
  - intros _. simpl. rewrite orb_false_r. reflexivity.
  - rewrite count_sentinel_cons, selections_cons.
    destruct (py_eq_str x REMAINDER) eqn:E.
    + apply py_eq_str_true in E. subst x.
      destruct found; simpl Nat.b2n; intros H; [lia|].
      rewrite <- app_comm_cons, trace_first.
      rewrite IH by (simpl; lia). reflexivity.
    + simpl. intros H. unfold loop_body. rewrite E.
      rewrite IH by exact H. reflexivity.
Qed.

Lemma to_list_next_eq (g g' : generator) (fuel : nat) :
  next w g = next w g' -> to_list w fuel g = to_list w fuel g'.
Proof.
  intros H. destruct fuel; [reflexivity|]. cbn [to_list]. rewrite H. reflexivity.
Qed.

Lemma advance_next_eq (g g' : generator) (n : nat) :
  next w g = next w g' -> advance w (S n) g = advance w (S n) g'.
Proof. intros H. simpl. rewrite H. reflexivity. Qed.

Lemma advance_ordinary (pre rest : list yaml) (found : bool) (n : nat) :
  count_sentinel pre = 0 ->
  advance w (length pre + n) (Suspended (pre ++ rest) found) =
  advance w n (Suspended rest found).
Proof.
  induction pre as [|x pre IH]; [reflexivity|].
  rewrite count_sentinel_cons.
  destruct (py_eq_str x REMAINDER) eqn:E; [discriminate|].
  simpl. intros H. unfold loop_body. rewrite E. simpl.
  apply IH. exact H.
Qed.

(** [list(g)] on a suspended generator, for any fuel beyond the number of
    items left. *)
Lemma to_list_suspended (it : list yaml) :
  forall (found : bool) (fuel : nat),
    length it < fuel ->
    to_list w fuel (Suspended it found) =
    Some (if decide (count_sentinel it + Nat.b2n found <= 1)
          then inr (selections it)
          else inl (Exception duplicate_message)).
Proof.
  induction it as [|x it IH]; intros found fuel Hfuel.
  - destruct fuel; [simpl in Hfuel; lia|]. simpl.
    destruct found; reflexivity.
  - destruct fuel; [simpl in Hfuel; lia|].
    simpl in Hfuel.
    rewrite count_sentinel_cons, selections_cons.
    destruct (py_eq_str x REMAINDER) eqn:E.
    + apply py_eq_str_true in E. subst x. destruct found.
      * simpl. destruct (decide _) as [H|H]; [simpl in H; lia | reflexivity].
      * rewrite (to_list_next_eq (Suspended (sentinel :: it) false)
                   (Suspended it true)) by reflexivity.
        rewrite IH by lia. simpl.
        repeat destruct (decide _); try reflexivity; lia.
    + cbn [to_list next]. rewrite resume_ordinary by exact E.
      rewrite IH by lia. simpl.
      repeat destruct (decide _); try reflexivity; lia.
Qed.

Lemma to_list_created (tests : list yaml) (fuel : nat) :
  load_selections w = inr (YSeq tests) ->
  to_list w fuel get_test_selections = to_list w fuel (Suspended tests false).
Proof.
  intros H. apply to_list_next_eq.
  eapply next_created; [exact H | reflexivity].
Qed.

End Calls.

(** ** The produced sequence *)

(** C1. When the [tests] list of the workflow holds no ["REMAINDER"], the
    generator produces exactly that list, item for item and in order:
    [list(get_test_selections())] is the list itself, and the calls of
    [next] yield its items one by one and then stop. *)
Theorem C1_no_remainder_identity (w : World) (tests : list yaml) :
  load_selections w = inr (YSeq tests) ->
  count_sentinel tests = 0 ->
  (forall fuel, length tests < fuel ->
     to_list w fuel get_test_selections = Some (inr tests))
  /\ (forall n,
        trace w (length tests + S n) get_test_selections =
        map Yield tests ++ replicate (S n) StopIteration).
Proof.
  intros Hload Hclean. split.
  - intros fuel Hfuel.
    rewrite (to_list_created w tests fuel Hload).
    rewrite to_list_suspended by exact Hfuel.
    rewrite Hclean. simpl. rewrite selections_clean by exact Hclean. reflexivity.
  - intros n. rewrite (trace_created w tests _ Hload).
    rewrite <- (app_nil_r tests) at 2.
    rewrite trace_ordinary by exact Hclean.
    rewrite trace_exhausted. reflexivity.
Qed.

Lemma C1_witness :
  to_list (world_of [YStr "a"; YStr "b"]) 3 get_test_selections =
  Some (inr [YStr "a"; YStr "b"]).
Proof.
  apply (C1_no_remainder_identity (world_of [YStr "a"; YStr "b"])
           [YStr "a"; YStr "b"]).
  - vm_compute. reflexivity.
  - vm_compute. reflexivity.
  - simpl. lia.
Defined.

(** C2. When the [tests] list holds exactly one ["REMAINDER"], the generator
    produces the list with that one item deleted and the others in their
    order, and it ends by stopping, not by raising. *)
Theorem C2_single_remainder_removed (w : World) (tests : list yaml) :
  load_selections w = inr (YSeq tests) ->
  count_sentinel tests = 1 ->
  exists i,
    tests !! i = Some sentinel
    /\ (forall fuel, length tests < fuel ->
          to_list w fuel get_test_selections = Some (inr (delete i tests)))
    /\ (forall n,
          trace w (length tests + n) get_test_selections =
          map Yield (delete i tests) ++ replicate (S n) StopIteration).
Proof.
  intros Hload Hone.
  destruct (first_sentinel tests) as (pre & post & Heq & Hpre); [lia|].
  subst tests.
  assert (Hpost : count_sentinel post = 0).
  { rewrite count_sentinel_app, count_sentinel_cons in Hone. simpl in Hone. lia. }
  exists (length pre). rewrite delete_middle.
  split; [apply list_lookup_middle; reflexivity|]. split.
  - intros fuel Hfuel.
    rewrite (to_list_created w _ fuel Hload).
    rewrite to_list_suspended by exact Hfuel.
    rewrite Hone. simpl.
    rewrite selections_app, selections_cons. simpl.
    rewrite !selections_clean by assumption. reflexivity.
  - intros n. rewrite (trace_created w _ _ Hload).
    replace (length (pre ++ sentinel :: post) + n)
      with (length pre + (length post + S n))
      by (rewrite length_app; simpl; lia).
    rewrite trace_ordinary by exact Hpre.
    rewrite trace_first.
    rewrite <- (app_nil_r post) at 2.
    rewrite trace_ordinary by exact Hpost.
    rewrite trace_exhausted, map_app, <- app_assoc. reflexivity.
Qed.

Lemma C2_witness :
  exists i,
    [YStr "a"; YStr "REMAINDER"; YStr "b"] !! i = Some sentinel
    /\ (forall fuel, 3 < fuel ->
          to_list (world_of [YStr "a"; YStr "REMAINDER"; YStr "b"]) fuel
            get_test_selections =
          Some (inr (delete i [YStr "a"; YStr "REMAINDER"; YStr "b"])))
    /\ (forall n,
          trace (world_of [YStr "a"; YStr "REMAINDER"; YStr "b"]) (3 + n)
            get_test_selections =
          map Yield (delete i [YStr "a"; YStr "REMAINDER"; YStr "b"])
          ++ replicate (S n) StopIteration).
Proof.
  apply (C2_single_remainder_removed
           (world_of [YStr "a"; YStr "REMAINDER"; YStr "b"])
           [YStr "a"; YStr "REMAINDER"; YStr "b"]).
  - vm_compute. reflexivity.
  - vm_compute. reflexivity.
Defined.

(** C3. When the [tests] list holds two or more ["REMAINDER"], the generator
    raises at the second one: the call of [next] that follows the yields of
    the other items before it raises an exception whose message names
    ["REMAINDER"]. Those items were yielded in order by the earlier calls,
    the items after the second occurrence are never looked at (the generator
    is finished and every later call only stops), and [list] of the
    generator raises the same exception. *)
Theorem C3_second_remainder_raises (w : World) (tests : list yaml) :
  load_selections w = inr (YSeq tests) ->
  2 <= count_sentinel tests ->
  exists pre mid post,
    tests = pre ++ sentinel :: mid ++ sentinel :: post
    /\ count_sentinel pre = 0
    /\ count_sentinel mid = 0
    /\ (forall n,
          trace w (length (pre ++ mid) + S n) get_test_selections =
          map Yield (pre ++ mid)
          ++ Raise (Exception "Two REMAINDER test selections found")
             :: replicate n StopIteration)
    /\ advance w (length (pre ++ mid) + 1) get_test_selections = Finished
    /\ run_loop loop_start (pre ++ sentinel :: mid) = inr (mkLoop true (pre ++ mid))
    /\ loop_iteration (mkLoop true (pre ++ mid)) sentinel =
       inl (Exception ("Two " +:+ REMAINDER +:+ " test selections found"))
    /\ (forall fuel, length tests < fuel ->
          to_list w fuel get_test_selections =
          Some (inl (Exception "Two REMAINDER test selections found"))).
Proof.
  intros Hload Htwo.
  destruct (second_sentinel tests Htwo) as (pre & mid & post & Heq & Hpre & Hmid).
  exists pre, mid, post.
  split; [exact Heq|]. split; [exact Hpre|]. split; [exact Hmid|].
  split; [|split; [|split; [|split]]].
  - intros n. rewrite (trace_created w tests _ Hload). subst tests.
    replace (length (pre ++ mid) + S n) with (length pre + (length mid + S n))
      by (rewrite length_app; lia).
    rewrite trace_ordinary by exact Hpre.
    rewrite trace_first.
    rewrite trace_ordinary by exact Hmid.
    rewrite trace_second, map_app, <- app_assoc. reflexivity.
  - replace (length (pre ++ mid) + 1) with (S (length (pre ++ mid))) by lia.
    rewrite (advance_next_eq w get_test_selections (Suspended tests false))
      by (eapply next_created; [exact Hload | reflexivity]).
    subst tests.
    replace (S (length (pre ++ mid))) with (length pre + S (length mid))
      by (rewrite length_app; lia).
    rewrite advance_ordinary by exact Hpre.
    rewrite (advance_next_eq w (Suspended (sentinel :: mid ++ sentinel :: post) false)
               (Suspended (mid ++ sentinel :: post) true)) by reflexivity.
    replace (S (length mid)) with (length mid + 1) by lia.
    rewrite advance_ordinary by exact Hmid. reflexivity.
  - unfold loop_start. rewrite run_loop_spec.
    rewrite count_sentinel_app, count_sentinel_cons, Hpre, Hmid. simpl.
    rewrite selections_app, selections_cons. simpl.
    rewrite !selections_clean by assumption. reflexivity.
  - reflexivity.
  - intros fuel Hfuel.
    rewrite (to_list_created w tests fuel Hload).
    rewrite to_list_suspended by exact Hfuel.
    destruct (decide _) as [H|H]; [simpl in H; lia | reflexivity].
Qed.

Lemma C3_witness :
  exists pre mid post,
    [YStr "a"; YStr "REMAINDER"; YStr "b"; YStr "REMAINDER"; YStr "c"] =
      pre ++ sentinel :: mid ++ sentinel :: post
    /\ count_sentinel pre = 0
    /\ count_sentinel mid = 0
    /\ (forall n,
          trace (world_of [YStr "a"; YStr "REMAINDER"; YStr "b";
                           YStr "REMAINDER"; YStr "c"])
            (length (pre ++ mid) + S n) get_test_selections =
          map Yield (pre ++ mid)
          ++ Raise (Exception "Two REMAINDER test selections found")
             :: replicate n StopIteration)
    /\ advance (world_of [YStr "a"; YStr "REMAINDER"; YStr "b";
                          YStr "REMAINDER"; YStr "c"])
         (length (pre ++ mid) + 1) get_test_selections = Finished
    /\ run_loop loop_start (pre ++ sentinel :: mid) = inr (mkLoop true (pre ++ mid))
    /\ loop_iteration (mkLoop true (pre ++ mid)) sentinel =
       inl (Exception ("Two " +:+ REMAINDER +:+ " test selections found"))
    /\ (forall fuel, 5 < fuel ->
          to_list (world_of [YStr "a"; YStr "REMAINDER"; YStr "b";
                             YStr "REMAINDER"; YStr "c"]) fuel
            get_test_selections =
          Some (inl (Exception "Two REMAINDER test selections found"))).
Proof.
  apply (C3_second_remainder_raises
           (world_of [YStr "a"; YStr "REMAINDER"; YStr "b";
                      YStr "REMAINDER"; YStr "c"])
           [YStr "a"; YStr "REMAINDER"; YStr "b"; YStr "REMAINDER"; YStr "c"]).
  - vm_compute. reflexivity.
  - vm_compute. lia.
Defined.

(** C4. When the [tests] list holds exactly one ["REMAINDER"], at index [i],
    putting ["REMAINDER"] back at index [i] of the produced list gives the
    [tests] list again. *)
Theorem C4_reinsert_roundtrip (w : World) (tests : list yaml) (i : nat) :
  load_selections w = inr (YSeq tests) ->
  count_sentinel tests = 1 ->
  tests !! i = Some (YStr "REMAINDER") ->
  forall fuel, length tests < fuel ->
    exists out,
      to_list w fuel get_test_selections = Some (inr out)
      /\ insert_at i (YStr "REMAINDER") out = tests.
Proof.
  intros Hload Hone Hi fuel Hfuel.
  destruct (single_sentinel_split tests i Hone Hi) as (Heq & Hpre & Hpost).
  exists (selections tests). split.
  - rewrite (to_list_created w tests fuel Hload).
    rewrite to_list_suspended by exact Hfuel.
    rewrite Hone. reflexivity.
  - assert (Hlen : length (take i tests) = i).
    { apply length_take_le. apply lookup_lt_Some in Hi. lia. }
    assert (Hsel : selections tests = take i tests ++ drop (S i) tests).
    { rewrite Heq at 1. rewrite selections_app, selections_cons. simpl.
      rewrite !selections_clean by assumption. reflexivity. }
    rewrite Hsel. unfold insert_at.
    rewrite take_app_length' by (symmetry; exact Hlen).
    rewrite drop_app_length' by (symmetry; exact Hlen).
    symmetry. exact Heq.
Qed.

Lemma C4_witness :
  exists out,
    to_list (world_of [YStr "a"; YStr "REMAINDER"; YStr "b"]) 4
      get_test_selections = Some (inr out)
    /\ insert_at 1 (YStr "REMAINDER") out =
       [YStr "a"; YStr "REMAINDER"; YStr "b"].
Proof.
  apply (C4_reinsert_roundtrip
           (world_of [YStr "a"; YStr "REMAINDER"; YStr "b"])
           [YStr "a"; YStr "REMAINDER"; YStr "b"] 1).
  - vm_compute. reflexivity.
  - vm_compute. reflexivity.
  - reflexivity.
  - simpl. lia.
Defined.

(** ** Sentinel detection and the loop invariant *)

(** C9. The sentinel test is equality with the str ["REMAINDER"], character
    for character. An item that is anything else (a str in another case or
    with a space, a value that is not a str) is never taken for the
    sentinel: whatever the flag, the loop body yields it unchanged and
    leaves the flag alone, and when it stands in the [tests] list behind
    items the loop runs through, the generator yields it right after their
    selections. *)
Theorem C9_sentinel_equality_exact (w : World) (x : yaml) :
  x <> YStr "REMAINDER" ->
  (forall found, loop_body found x = YieldValue x)
  /\ (forall it found,
        next w (Suspended (x :: it) found) = (Yield x, Suspended it found))
  /\ (forall pre post,
        load_selections w = inr (YSeq (pre ++ x :: post)) ->
        count_sentinel pre <= 1 ->
        trace w (length (selections pre) + 1) get_test_selections =
        map Yield (selections pre) ++ [Yield x]).
Proof.
  intros Hx.
  assert (E : py_eq_str x REMAINDER = false) by (apply py_eq_str_false; exact Hx).
  split; [|split].
  - intros found. apply loop_body_ordinary. exact Hx.
  - intros it found. apply resume_ordinary. exact E.
  - intros pre post Hload Hpre.
    rewrite (trace_created w _ _ Hload).
    rewrite trace_prefix by (simpl; lia).
    cbn [trace next]. rewrite resume_ordinary by exact E. reflexivity.
Qed.

Lemma C9_witness :
  (forall found, loop_body found (YStr "remainder") = YieldValue (YStr "remainder"))
  /\ (forall it found,
        next (world_of [YStr "REMAINDER"; YStr "remainder"])
          (Suspended (YStr "remainder" :: it) found) =
        (Yield (YStr "remainder"), Suspended it found))
  /\ (forall pre post,
        load_selections (world_of [YStr "REMAINDER"; YStr "remainder"]) =
          inr (YSeq (pre ++ YStr "remainder" :: post)) ->
        count_sentinel pre <= 1 ->
        trace (world_of [YStr "REMAINDER"; YStr "remainder"])
          (length (selections pre) + 1) get_test_selections =
        map Yield (selections pre) ++ [Yield (YStr "remainder")]).
Proof.
  apply (C9_sentinel_equality_exact
           (world_of [YStr "REMAINDER"; YStr "remainder"]) (YStr "remainder")).
  discriminate.
Defined.

(** Near misses of the sentinel and values that are not strings all pass
    through, next to a real sentinel that is dropped. *)
Example near_misses_pass_through :
  to_list (world_of [YStr "remainder"; YStr "Remainder"; YStr " REMAINDER";
                     YStr "REMAINDER"; YInt 7; YNull; YSeq [YStr "REMAINDER"]])
    8 get_test_selections =
  Some (inr [YStr "remainder"; YStr "Remainder"; YStr " REMAINDER";
             YInt 7; YNull; YSeq [YStr "REMAINDER"]]).
Proof. vm_compute. reflexivity. Qed.

(** C10. Loop invariant. Once the loop has run through a prefix of the
    [tests] list, that prefix holds at most one sentinel, [remainder_found]
    is true exactly when the prefix holds a sentinel, and the values yielded
    so far are the items of the prefix that are not the sentinel, in their
    order. They are what the calls of [next] have yielded, and the loop goes
    on with the rest of the list under that flag. *)
Theorem C10_loop_invariant
    (w : World) (tests prefix rest : list yaml) (st : loop_state) :
  tests = prefix ++ rest ->
  run_loop loop_start prefix = inr st ->
  count_sentinel prefix <= 1
  /\ (remainder_found st = true <-> sentinel ∈ prefix)
  /\ (remainder_found st = true <-> 1 <= count_sentinel prefix)
  /\ produced st = selections prefix
  /\ (forall n,
        trace w (length (produced st) + n) (Suspended tests false) =
        map Yield (produced st) ++ trace w n (Suspended rest (remainder_found st))).
Proof.
  intros Htests Hrun. unfold loop_start in Hrun.
  rewrite run_loop_spec in Hrun.
  destruct (decide _) as [Hle|Hgt]; [|discriminate].
  simpl in Hle. injection Hrun as <-.
  cbn [remainder_found produced orb app].
  assert (Hflag : bool_decide (0 < count_sentinel prefix) = true
                  <-> 1 <= count_sentinel prefix)
    by (rewrite bool_decide_eq_true; lia).
  split; [lia|]. split; [|split; [exact Hflag|split; [reflexivity|]]].
  - rewrite Hflag. unfold count_sentinel. split.
    + intros Hc.
      destruct (filter (λ v, py_eq_str v REMAINDER = true) prefix) as [|y l] eqn:Ef;
        [simpl in Hc; lia|].
      assert (Hy : y ∈ filter (λ v, py_eq_str v REMAINDER = true) prefix)
        by (rewrite Ef; left).
      apply list_elem_of_filter in Hy as [Hy1 Hy2].
      apply py_eq_str_true in Hy1. subst y. exact Hy2.
    + intros Hin.
      assert (Hf : sentinel ∈ filter (λ v, py_eq_str v REMAINDER = true) prefix)
        by (apply list_elem_of_filter; split; [reflexivity | exact Hin]).
      destruct (filter _ prefix); [inversion Hf | simpl; lia].
  - intros n. subst tests. rewrite trace_prefix by (simpl; lia). reflexivity.
Qed.

Lemma C10_witness :
  count_sentinel [YStr "a"; YStr "REMAINDER"] <= 1
  /\ (remainder_found (mkLoop true [YStr "a"]) = true
      <-> sentinel ∈ [YStr "a"; YStr "REMAINDER"])
  /\ (remainder_found (mkLoop true [YStr "a"]) = true
      <-> 1 <= count_sentinel [YStr "a"; YStr "REMAINDER"])
  /\ produced (mkLoop true [YStr "a"]) = selections [YStr "a"; YStr "REMAINDER"]
  /\ (forall n,
        trace (world_of [YStr "a"; YStr "REMAINDER"; YStr "b"])
          (length (produced (mkLoop true [YStr "a"])) + n)
          (Suspended [YStr "a"; YStr "REMAINDER"; YStr "b"] false) =
        map Yield (produced (mkLoop true [YStr "a"]))
        ++ trace (world_of [YStr "a"; YStr "REMAINDER"; YStr "b"]) n
             (Suspended [YStr "b"] (remainder_found (mkLoop true [YStr "a"])))).
Proof.
  apply (C10_loop_invariant
           (world_of [YStr "a"; YStr "REMAINDER"; YStr "b"])
           [YStr "a"; YStr "REMAINDER"; YStr "b"]
           [YStr "a"; YStr "REMAINDER"] [YStr "b"] (mkLoop true [YStr "a"])).
  - reflexivity.
  - vm_compute. reflexivity.
Defined.

(** ** The project root and the workflow path *)

(** C5, as the code has it. [get_project_root] first asks for the working
    directory, whether or not [PROJECT_ROOT] is set, and raises when there
    is none. Otherwise it returns the value of [PROJECT_ROOT] as a path
    whenever the variable is set, the empty value included, and the working
    directory only when the variable is not set. *)
Theorem C5_project_root_resolution (w : World) :
  get_project_root w =
  match getcwd w with
  | None => inl (FileNotFoundError None)
  | Some cwd =>
      inr (match environ w !! "PROJECT_ROOT" with
           | Some value => pathlib.Path value
           | None => pathlib.Path cwd
           end)
  end.
Proof.
  unfold get_project_root, os_getcwd, getenv.
  destruct (getcwd w) as [cwd|]; [|reflexivity]. simpl.
  destruct (environ w !! "PROJECT_ROOT"); reflexivity.
Qed.

(** C5 as stated fails: with [PROJECT_ROOT] set to the empty string the
    result is the empty relative path, printed ["."], and not the path of
    the working directory [/home/ci/rchain]; and with [PROJECT_ROOT] set to
    a directory, in a process whose working directory was removed, nothing
    is returned. *)
Lemma C5_counterexample :
  (environ empty_root_world !! "PROJECT_ROOT" = Some ""
   /\ getcwd empty_root_world = Some "/home/ci/rchain"
   /\ get_project_root empty_root_world = inr (pathlib.mkPath "" [])
   /\ pathlib.fspath (pathlib.mkPath "" []) = "."
   /\ get_project_root empty_root_world <> inr (pathlib.Path "/home/ci/rchain"))
  /\ (environ gone_cwd_world !! "PROJECT_ROOT" = Some "/home/ci/rchain"
      /\ get_project_root gone_cwd_world = inl (FileNotFoundError None)).
Proof.
  split.
  - split; [vm_compute; reflexivity|].
    split; [reflexivity|].
    split; [vm_compute; reflexivity|].
    split; [vm_compute; reflexivity|].
    vm_compute. discriminate.
  - split; vm_compute; reflexivity.
Qed.

(** *** Absolute paths stay absolute *)

Lemma isabs_append (a b : string) :
  posixpath.isabs a = true -> posixpath.isabs (a +:+ b) = true.
Proof. destruct a; [discriminate | trivial]. Qed.

Lemma isabs_join (a b : string) :
  posixpath.isabs a = true -> posixpath.isabs (posixpath.join a b) = true.
Proof.
  intros Ha. unfold posixpath.join.
  destruct (posixpath.isabs b) eqn:Eb; [exact Eb|].
  destruct (_ || _); apply isabs_append; exact Ha.
Qed.

Lemma initial_slashes_isabs (p : string) :
  posixpath.isabs p = true -> exists k, posixpath.initial_slashes p = S k.
Proof.
  destruct p as [|c1 [|c2 [|c3 p]]]; simpl; [discriminate | | |];
    intros ->; [|destruct (posixpath.is_sep c2)|destruct (_ && _)]; eauto.
Qed.

Lemma isabs_normpath (p : string) :
  posixpath.isabs p = true -> posixpath.isabs (posixpath.normpath p) = true.
Proof.
  intros Hp. unfold posixpath.normpath.
  destruct p as [|c p]; [discriminate|]. cbn [posixpath.is_empty].
  destruct (initial_slashes_isabs (String c p) Hp) as [k ->].
  reflexivity.
Qed.

Lemma isabs_abspath (cwd p : string) :
  posixpath.isabs cwd || posixpath.isabs p = true ->
  posixpath.isabs (posixpath.abspath cwd p) = true.
Proof.
  intros H. unfold posixpath.abspath. apply isabs_normpath.
  destruct (posixpath.isabs p) eqn:Ep; [exact Ep|].
  apply isabs_join. rewrite orb_false_r in H. exact H.
Qed.

Lemma rstrip_sep_nonempty (p : string) :
  posixpath.all_seps p = false ->
  posixpath.is_empty (posixpath.rstrip_sep p) = false.
Proof.
  induction p as [|c p IH]; [discriminate|]. simpl.
  destruct (posixpath.is_sep c); simpl; [|reflexivity].
  intros H. rewrite (IH H). reflexivity.
Qed.

Lemma isabs_dirname (p : string) :
  posixpath.isabs p = true -> posixpath.isabs (posixpath.dirname p) = true.
Proof.
  destruct p as [|c p]; [discriminate|]. simpl. intros Hc.
  unfold posixpath.dirname. cbn [posixpath.head_of]. rewrite Hc.
  cbn [posixpath.is_empty posixpath.all_seps negb andb]. rewrite Hc.
  cbn [andb].
  destruct (posixpath.all_seps (posixpath.head_of p)) eqn:Ea; simpl; [exact Hc|].
  rewrite Hc. rewrite (rstrip_sep_nonempty _ Ea). simpl. exact Hc.
Qed.

Lemma Path_root_absolute (s : string) :
  posixpath.isabs s = true ->
  posixpath.is_empty (pathlib.root (pathlib.Path s)) = false.
Proof.
  destruct s as [|c1 s]; [discriminate|]. simpl. intros Hc.
  unfold pathlib.Path. cbn [posixpath.is_empty pathlib.splitroot]. rewrite Hc.
  destruct s as [|c2 s]; [reflexivity|].
  destruct (posixpath.is_sep c2); [|reflexivity].
  destruct (posixpath.isabs s); reflexivity.
Qed.

Lemma truediv_absolute (p : pathlib.PurePath) (key : string) :
  posixpath.isabs key = true -> pathlib.truediv p key = pathlib.Path key.
Proof.
  intros H. unfold pathlib.truediv.
  rewrite (Path_root_absolute key H). reflexivity.
Qed.

Lemma WORKFLOW_PATH_absolute (w : World) :
  posixpath.isabs (import_cwd w) || posixpath.isabs (module_file w) = true ->
  posixpath.isabs (WORKFLOW_PATH w) = true.
Proof.
  intros H. unfold WORKFLOW_PATH, GITHUB_DIR.
  apply isabs_append, isabs_dirname, isabs_abspath. exact H.
Qed.

(** Since [os.getcwd()] is absolute, so is [WORKFLOW_PATH], and joining it to
    the project root gives [WORKFLOW_PATH] back: the path that is opened does
    not depend on the project root. *)
Lemma workflow_path_absolute (w : World) (project_root : pathlib.PurePath) :
  posixpath.isabs (import_cwd w) || posixpath.isabs (module_file w) = true ->
  workflow_path w project_root = pathlib.Path (WORKFLOW_PATH w).
Proof.
  intros H. unfold workflow_path.
  apply truediv_absolute, WORKFLOW_PATH_absolute. exact H.
Qed.

(** C6 at a failing input: the module sits under [/opt/ci/.github] and
    [PROJECT_ROOT] names the checkout [/srv/build/rchain], which has the
    workflow file. The project root is resolved to that checkout, yet the
    path opened is the one next to the module, not the one under the project
    root, and the first call of [next] raises [FileNotFoundError]. *)
Theorem C6_project_root_not_used :
  get_project_root relocated_world = inr (pathlib.Path "/srv/build/rchain")
  /\ open_read relocated_world
       (pathlib.Path
          "/srv/build/rchain/.github/workflows/continuous-integration.yml")
     = inr "jobs: ..."
  /\ pathlib.fspath
       (workflow_path relocated_world (pathlib.Path "/srv/build/rchain")) =
     "/opt/ci/.github/workflows/continuous-integration.yml"
  /\ workflow_path relocated_world (pathlib.Path "/srv/build/rchain") <>
     pathlib.truediv (pathlib.Path "/srv/build/rchain")
       ".github/workflows/continuous-integration.yml"
  /\ next relocated_world get_test_selections =
     (Raise (FileNotFoundError
               (Some "/opt/ci/.github/workflows/continuous-integration.yml")),
      Finished).
Proof.
  split; [vm_compute; reflexivity|].
  split; [vm_compute; reflexivity|].
  split; [vm_compute; reflexivity|].
  split; [vm_compute; discriminate|].
  vm_compute. reflexivity.
Qed.

(** ** Failures before the loop *)














(** * Further properties of the generator *)

Lemma resume_yield_ordinary (it : list yaml) :
  forall (found : bool) (v : yaml) (g : generator),
    resume it found = (Yield v, g) -> py_eq_str v REMAINDER = false.
Proof.
  induction it as [|x it IH]; intros found v g; [discriminate|].
  simpl. unfold loop_body.
  destruct (py_eq_str x REMAINDER) eqn:E.
  - destruct found; simpl; [discriminate | apply IH].
  - intros [= <- _]. exact E.
Qed.

Lemma next_yield_ordinary (w : World) (g g' : generator) (v : yaml) :
  next w g = (Yield v, g') -> py_eq_str v REMAINDER = false.
Proof.
  destruct g as [|it found|]; simpl.
  - destruct (prologue w) as [e|it]; [discriminate|]. apply resume_yield_ordinary.
  - apply resume_yield_ordinary.
  - discriminate.
Qed.

Lemma trace_never_sentinel (w : World) (n : nat) :
  forall g, Forall (fun o => o <> Yield sentinel) (trace w n g).
Proof.
  induction n as [|n IH]; intros g; [constructor|].
  simpl. destruct (next w g) as [o g'] eqn:E.
  constructor; [|apply IH].
  intros ->. apply next_yield_ordinary in E. discriminate.
Qed.

(** X1. Whatever the world and whatever the workflow holds under the key
    path (a list, a str, a dict), no call of [next] ever yields the str
    ["REMAINDER"]. *)
Theorem X1_sentinel_never_yielded (w : World) (n : nat) :
  Forall (fun o => o <> Yield (YStr "REMAINDER"))
    (trace w n get_test_selections).
Proof. apply trace_never_sentinel. Qed.

Lemma yielded_stops (n : nat) : yielded (replicate n StopIteration) = [].
Proof. induction n as [|n IH]; [reflexivity | exact IH]. Qed.

Lemma yielded_suspended_prefix (w : World) (it : list yaml) :
  forall (found : bool) (n : nat),
    yielded (trace w n (Suspended it found)) `prefix_of` selections it.
Proof.
  induction it as [|x it IH]; intros found n.
  - destruct n; [apply prefix_nil|].
    rewrite trace_exhausted, yielded_stops. apply prefix_nil.
  - destruct n as [|n]; [apply prefix_nil|].
    rewrite selections_cons.
    destruct (py_eq_str x REMAINDER) eqn:E.
    + apply py_eq_str_true in E. subst x. destruct found.
      * rewrite trace_second. simpl. rewrite yielded_stops. apply prefix_nil.
      * rewrite trace_first. apply IH.
    + cbn [trace next]. rewrite resume_ordinary by exact E.
      simpl. apply prefix_cons, IH.
Qed.

Lemma selections_sublist (l : list yaml) : selections l `sublist_of` l.
Proof. apply sublist_filter. Qed.

(** X2. However many calls of [next] are made and however the run ends, the
    values yielded so far are an initial part of the non-sentinel items of
    the [tests] list: nothing is invented, repeated or reordered, and there
    are never more values than items. *)
Theorem X2_yields_follow_the_list (w : World) (tests : list yaml) (n : nat) :
  load_selections w = inr (YSeq tests) ->
  yielded (trace w n get_test_selections) `prefix_of` selections tests
  /\ yielded (trace w n get_test_selections) `sublist_of` tests
  /\ length (yielded (trace w n get_test_selections)) <= length tests.
Proof.
  intros Hload. rewrite (trace_created w tests n Hload).
  pose proof (yielded_suspended_prefix w tests false n) as Hpre.
  assert (Hsub : yielded (trace w n (Suspended tests false)) `sublist_of` tests).
  { destruct Hpre as [k Hk]. etrans; [|apply selections_sublist].
    rewrite Hk. apply sublist_inserts_r. reflexivity. }
  split; [exact Hpre|]. split; [exact Hsub|].
  apply sublist_length. exact Hsub.
Qed.

Lemma X2_witness :
  yielded (trace (world_of [YStr "a"; YStr "REMAINDER"; YStr "b";
                            YStr "REMAINDER"; YStr "c"]) 7 get_test_selections)
    `prefix_of`
    selections [YStr "a"; YStr "REMAINDER"; YStr "b"; YStr "REMAINDER"; YStr "c"]
  /\ yielded (trace (world_of [YStr "a"; YStr "REMAINDER"; YStr "b";
                               YStr "REMAINDER"; YStr "c"]) 7 get_test_selections)
     `sublist_of`
     [YStr "a"; YStr "REMAINDER"; YStr "b"; YStr "REMAINDER"; YStr "c"]
  /\ length (yielded (trace (world_of [YStr "a"; YStr "REMAINDER"; YStr "b";
                                       YStr "REMAINDER"; YStr "c"]) 7
                        get_test_selections))
     <= length [YStr "a"; YStr "REMAINDER"; YStr "b"; YStr "REMAINDER"; YStr "c"].
Proof.
  apply (X2_yields_follow_the_list
           (world_of [YStr "a"; YStr "REMAINDER"; YStr "b";
                      YStr "REMAINDER"; YStr "c"])
           [YStr "a"; YStr "REMAINDER"; YStr "b"; YStr "REMAINDER"; YStr "c"] 7).
  vm_compute. reflexivity.
Defined.

(** X3. [list(get_test_selections())] returns exactly when the [tests] list
    holds at most one ["REMAINDER"]. It then returns every other item of the
    list, in order and wherever the sentinel stood; with two or more it
    raises the duplicate error instead of returning anything. *)
Theorem X3_list_result (w : World) (tests : list yaml) (fuel : nat) :
  load_selections w = inr (YSeq tests) ->
  length tests < fuel ->
  to_list w fuel get_test_selections =
  Some (if decide (count_sentinel tests <= 1)
        then inr (selections tests)
        else inl (Exception "Two REMAINDER test selections found")).
Proof.
  intros Hload Hfuel.
  rewrite (to_list_created w tests fuel Hload).
  rewrite to_list_suspended by exact Hfuel.
  simpl Nat.b2n. rewrite Nat.add_0_r. reflexivity.
Qed.

Lemma X3_witness :
  to_list (world_of [YStr "REMAINDER"; YStr "a"; YStr "b"]) 4
    get_test_selections =
  Some (if decide (count_sentinel [YStr "REMAINDER"; YStr "a"; YStr "b"] <= 1)
        then inr (selections [YStr "REMAINDER"; YStr "a"; YStr "b"])
        else inl (Exception "Two REMAINDER test selections found")).
Proof.
  apply (X3_list_result (world_of [YStr "REMAINDER"; YStr "a"; YStr "b"])
           [YStr "REMAINDER"; YStr "a"; YStr "b"] 4).
  - vm_compute. reflexivity.
  - simpl. lia.
Defined.

Lemma advance_finished (w : World) (n : nat) : advance w n Finished = Finished.
Proof. induction n as [|n IH]; [reflexivity | exact IH]. Qed.

Lemma advance_suspended_finished (w : World) (it : list yaml) :
  forall (found : bool) (k : nat),
    length it < k -> advance w k (Suspended it found) = Finished.
Proof.
  induction it as [|x it IH]; intros found k Hk;
    (destruct k as [|k]; [simpl in Hk; lia|]).
  - simpl. apply advance_finished.
  - simpl in Hk. destruct (py_eq_str x REMAINDER) eqn:E.
    + apply py_eq_str_true in E. subst x. destruct found.
      * simpl. apply advance_finished.
      * rewrite (advance_next_eq w (Suspended (sentinel :: it) false)
                   (Suspended it true)) by reflexivity.
        apply IH. lia.
    + cbn [advance next]. rewrite resume_ordinary by exact E.
      apply IH. lia.
Qed.

(** X4. The generator is finite: for a [tests] list of [n] items it is
    finished after at most [n + 1] calls of [next], whatever the list holds,
    and from then on every call only stops. *)
Theorem X4_generator_finishes (w : World) (tests : list yaml) (k : nat) :
  load_selections w = inr (YSeq tests) ->
  length tests < k ->
  advance w k get_test_selections = Finished
  /\ forall m, trace w m (advance w k get_test_selections)
               = replicate m StopIteration.
Proof.
  intros Hload Hk.
  assert (H : advance w k get_test_selections = Finished).
  { destruct k as [|k]; [lia|].
    rewrite (advance_next_eq w get_test_selections (Suspended tests false))
      by (eapply next_created; [exact Hload | reflexivity]).
    apply advance_suspended_finished. exact Hk. }
  split; [exact H|]. intros m. rewrite H. apply trace_finished.
Qed.

Lemma X4_witness :
  advance (world_of [YStr "a"; YStr "REMAINDER"; YStr "b"]) 4
    get_test_selections = Finished
  /\ forall m,
       trace (world_of [YStr "a"; YStr "REMAINDER"; YStr "b"]) m
         (advance (world_of [YStr "a"; YStr "REMAINDER"; YStr "b"]) 4
            get_test_selections)
       = replicate m StopIteration.
Proof.
  apply (X4_generator_finishes (world_of [YStr "a"; YStr "REMAINDER"; YStr "b"])
           [YStr "a"; YStr "REMAINDER"; YStr "b"] 4).
  - vm_compute. reflexivity.
  - simpl. lia.
Defined.

(** What [code_points] returns: continuation bytes in front, then items
    that each start with a byte that is not one and go on with bytes that
    are. *)
Lemma code_points_shape (s : string) :
  all_continuation (fst (code_points s)) = true
  /\ Forall (fun item => exists c t,
                 item = String c t /\ is_continuation c = false
                 /\ all_continuation t = true)
       (snd (code_points s)).
Proof.
  induction s as [|c s [IHt IHi]]; [split; [reflexivity | constructor]|].
  simpl. destruct (code_points s) as [tail items]. simpl in IHt, IHi.
  destruct (is_continuation c) eqn:E; simpl.
  - split; [rewrite E, IHt; reflexivity | exact IHi].
  - split; [reflexivity|]. constructor; [eauto | exact IHi].
Qed.

Lemma character_not_sentinel (c : ascii) (t : string) :
  is_continuation c = false -> all_continuation t = true ->
  String.eqb (String c t) REMAINDER = false.
Proof.
  intros _ Ht. unfold REMAINDER.
  destruct t as [|d t]; simpl.
  - destruct (Ascii.eqb c "R"); reflexivity.
  - simpl in Ht. apply andb_true_iff in Ht as [Hd _].
    destruct (Ascii.eqb c "R"); [|reflexivity].
    destruct (Ascii.eqb d "E") eqn:E; [|reflexivity].
    apply Ascii.eqb_eq in E. subst d. discriminate.
Qed.

Lemma continuation_not_sentinel (t : string) :
  all_continuation t = true -> String.eqb t REMAINDER = false.
Proof.
  destruct t as [|d t]; [reflexivity|]. simpl.
  intros H. apply andb_true_iff in H as [Hd _]. unfold REMAINDER. simpl.
  destruct (Ascii.eqb d "R") eqn:E; [|reflexivity].
  apply Ascii.eqb_eq in E. subst d. discriminate.
Qed.

Lemma count_sentinel_strs (items : list string) :
  Forall (fun item => String.eqb item REMAINDER = false) items ->
  count_sentinel (map YStr items) = 0.
Proof.
  induction 1 as [|item items Hitem _ IH]; [reflexivity|].
  simpl map. rewrite count_sentinel_cons. simpl. rewrite Hitem. exact IH.
Qed.

(** No character of a str is the sentinel. *)
Lemma count_sentinel_chars (s : string) : count_sentinel (chars s) = 0.
Proof.
  unfold chars. destruct (code_points_shape s) as [Htail Hitems].
  destruct (code_points s) as [tail items]. simpl in Htail, Hitems.
  assert (H : Forall (fun item => String.eqb item REMAINDER = false) items).
  { eapply Forall_impl; [exact Hitems|].
    intros item (c & t & -> & Hc & Ht). apply character_not_sentinel; assumption. }
  apply count_sentinel_strs.
  destruct tail as [|d tail]; [exact H|].
  constructor; [apply continuation_not_sentinel; exact Htail | exact H].
Qed.

(** A character of several bytes is one item. *)
Example chars_by_code_point :
  chars "aé日" = [YStr "a"; YStr "é"; YStr "日"].
Proof. vm_compute. reflexivity. Qed.

(** X5. When the workflow holds a plain string under [tests] where a list
    is meant, no error is raised: the generator yields the characters of the
    string one by one. This also happens for the string ["REMAINDER"], whose
    nine letters are yielded. *)
Theorem X5_string_in_place_of_list (w : World) (s : string) (fuel : nat) :
  load_selections w = inr (YStr s) ->
  length (chars s) < fuel ->
  to_list w fuel get_test_selections = Some (inr (chars s)).
Proof.
  intros Hload Hfuel.
  rewrite (to_list_next_eq w get_test_selections (Suspended (chars s) false))
    by (eapply next_created; [exact Hload | reflexivity]).
  rewrite to_list_suspended by exact Hfuel.
  rewrite count_sentinel_chars. simpl.
  rewrite selections_clean by apply count_sentinel_chars. reflexivity.
Qed.

Lemma X5_witness :
  to_list (sample_world [] (tests_doc (YStr "REMAINDER"))) 10
    get_test_selections =
  Some (inr (chars "REMAINDER")).
Proof.
  apply (X5_string_in_place_of_list
           (sample_world [] (tests_doc (YStr "REMAINDER"))) "REMAINDER" 10).
  - vm_compute. reflexivity.
  - vm_compute. lia.
Defined.

(** X6. Removing the sentinel is idempotent: when a run returns the list
    [out], a workflow whose [tests] list is [out] makes the generator return
    [out] again. *)
Theorem X6_output_is_a_fixed_point
    (w w' : World) (tests out : list yaml) (fuel : nat) :
  load_selections w = inr (YSeq tests) ->
  length tests < fuel ->
  to_list w fuel get_test_selections = Some (inr out) ->
  load_selections w' = inr (YSeq out) ->
  to_list w' fuel get_test_selections = Some (inr out).
Proof.
  intros Hload Hfuel Hout Hload'.
  rewrite (to_list_created w tests fuel Hload) in Hout.
  rewrite to_list_suspended in Hout by exact Hfuel.
  destruct (decide _) as [Hle|]; [|discriminate].
  injection Hout as <-.
  assert (Hlen : length (selections tests) < fuel).
  { pose proof (sublist_length _ _ (selections_sublist tests)). lia. }
  rewrite (to_list_created w' _ fuel Hload').
  rewrite to_list_suspended by exact Hlen.
  rewrite count_sentinel_selections. simpl.
  rewrite selections_clean by apply count_sentinel_selections. reflexivity.
Qed.

Lemma X6_witness :
  to_list (world_of [YStr "a"; YStr "b"]) 4 get_test_selections =
  Some (inr [YStr "a"; YStr "b"]).
Proof.
  apply (X6_output_is_a_fixed_point
           (world_of [YStr "a"; YStr "REMAINDER"; YStr "b"])
           (world_of [YStr "a"; YStr "b"])
           [YStr "a"; YStr "REMAINDER"; YStr "b"] [YStr "a"; YStr "b"] 4).
  - vm_compute. reflexivity.
  - simpl. lia.
  - vm_compute. reflexivity.
  - vm_compute. reflexivity.
Defined.

(** * Further properties of the workflow path *)






(** *** Paths made of plain components *)

Lemma string_app_assoc (a b c : string) : (a +:+ b) +:+ c = a +:+ (b +:+ c).
Proof.
  induction a as [|x a IH]; [reflexivity|].
  change (String x ((a +:+ b) +:+ c) = String x (a +:+ b +:+ c)).
  rewrite IH. reflexivity.
Qed.

Lemma plain_component_spec (comp : string) :
  plain_component comp = true ->
  posixpath.is_empty comp = false /\ no_sep comp = true
  /\ String.eqb comp "." = false /\ String.eqb comp ".." = false.
Proof.
  unfold plain_component. rewrite !andb_true_iff, !negb_true_iff. tauto.
Qed.

Lemma plain_component_head (comp : string) :
  plain_component comp = true ->
  exists a rest,
    comp = String a rest /\ posixpath.is_sep a = false /\ no_sep rest = true.
Proof.
  intros H. apply plain_component_spec in H as (Hne & Hns & _).
  destruct comp as [|a rest]; [discriminate|].
  simpl in Hns. apply andb_true_iff in Hns as [Ha Hrest].
  apply negb_true_iff in Ha. eauto.
Qed.

Lemma join_sep_cons (comp comp' : string) (comps : list string) :
  posixpath.join_sep (comp :: comp' :: comps) =
  comp +:+ String "/" (posixpath.join_sep (comp' :: comps)).
Proof. reflexivity. Qed.

Lemma join_sep_snoc (comps : list string) (name : string) :
  comps <> [] ->
  posixpath.join_sep (comps ++ [name]) =
  posixpath.join_sep comps +:+ String "/" name.
Proof.
  induction comps as [|comp comps IH]; [congruence|]. intros _.
  destruct comps as [|comp' comps]; [reflexivity|].
  change ((comp :: comp' :: comps) ++ [name])
    with (comp :: comp' :: (comps ++ [name])).
  rewrite !join_sep_cons.
  change (comp' :: comps ++ [name]) with ((comp' :: comps) ++ [name]).
  rewrite IH by discriminate.
  rewrite string_app_assoc. reflexivity.
Qed.

Lemma join_sep_head (comps : list string) :
  comps <> [] ->
  Forall (fun comp => plain_component comp = true) comps ->
  exists a rest,
    posixpath.join_sep comps = String a rest /\ posixpath.is_sep a = false.
Proof.
  destruct comps as [|comp comps]; [congruence|]. intros _ Hall.
  apply Forall_cons in Hall as [Hcomp _].
  destruct (plain_component_head comp Hcomp) as (a & rest & -> & Ha & _).
  destruct comps as [|comp' comps]; [eauto|].
  rewrite join_sep_cons. simpl. eauto.
Qed.

Lemma split_sep_no_sep (comp : string) :
  no_sep comp = true -> posixpath.split_sep comp = [comp].
Proof.
  induction comp as [|a comp IH]; [reflexivity|]. simpl.
  intros H. apply andb_true_iff in H as [Ha Hrest].
  apply negb_true_iff in Ha. rewrite Ha, (IH Hrest). reflexivity.
Qed.

Lemma split_sep_cons (comp s : string) :
  no_sep comp = true ->
  posixpath.split_sep (comp +:+ String "/" s) = comp :: posixpath.split_sep s.
Proof.
  induction comp as [|a comp IH]; [reflexivity|]. simpl.
  intros H. apply andb_true_iff in H as [Ha Hrest].
  apply negb_true_iff in Ha. rewrite Ha, (IH Hrest). reflexivity.
Qed.

(** Splitting undoes joining. *)
Lemma split_sep_join_sep (comps : list string) :
  comps <> [] ->
  Forall (fun comp => no_sep comp = true) comps ->
  posixpath.split_sep (posixpath.join_sep comps) = comps.
Proof.
  induction comps as [|comp comps IH]; [congruence|]. intros _ Hall.
  apply Forall_cons in Hall as [Hcomp Hall].
  destruct comps as [|comp' comps]; [apply split_sep_no_sep; exact Hcomp|].
  rewrite join_sep_cons, split_sep_cons by exact Hcomp.
  rewrite IH; [reflexivity | discriminate | exact Hall].
Qed.

Lemma plain_no_sep (comps : list string) :
  Forall (fun comp => plain_component comp = true) comps ->
  Forall (fun comp => no_sep comp = true) comps.
Proof.
  intros Hall. eapply Forall_impl; [exact Hall|].
  intros comp H. apply plain_component_spec in H. tauto.
Qed.

Lemma normpath_comps_plain (slashes : nat) (comps : list string) :
  Forall (fun comp => plain_component comp = true) comps ->
  forall new_comps,
    posixpath.normpath_comps slashes comps new_comps = rev new_comps ++ comps.
Proof.
  induction 1 as [|comp comps Hcomp _ IH]; intros new_comps.
  - simpl. rewrite app_nil_r. reflexivity.
  - apply plain_component_spec in Hcomp as (Hne & _ & Hdot & Hdots).
    assert (Hempty : String.eqb comp "" = false)
      by (destruct comp; [discriminate | reflexivity]).
    simpl. rewrite Hempty, Hdot, Hdots. simpl.
    rewrite IH. simpl. rewrite <- app_assoc. reflexivity.
Qed.

(** [normpath] leaves an absolute path of plain components as it is. *)
Lemma normpath_plain (comps : list string) :
  comps <> [] ->
  Forall (fun comp => plain_component comp = true) comps ->
  posixpath.normpath (String "/" (posixpath.join_sep comps)) =
  String "/" (posixpath.join_sep comps).
Proof.
  intros Hne Hall.
  destruct (join_sep_head comps Hne Hall) as (a & rest & Hj & Ha).
  unfold posixpath.normpath. cbn [posixpath.is_empty].
  assert (Hslashes :
            posixpath.initial_slashes (String "/" (posixpath.join_sep comps)) = 1).
  { rewrite Hj. destruct rest; simpl; rewrite Ha; reflexivity. }
  rewrite Hslashes.
  change (posixpath.split_sep (String "/" (posixpath.join_sep comps)))
    with ("" :: posixpath.split_sep (posixpath.join_sep comps)).
  rewrite split_sep_join_sep by (try apply plain_no_sep; assumption).
  cbn [posixpath.normpath_comps String.eqb orb].
  rewrite normpath_comps_plain by exact Hall.
  reflexivity.
Qed.

Lemma is_empty_app_cons (a : string) (c : ascii) (b : string) :
  posixpath.is_empty (a +:+ String c b) = false.
Proof. destruct a; reflexivity. Qed.

Lemma head_of_app_sep (a b : string) :
  posixpath.head_of (a +:+ String "/" b) = a +:+ String "/" (posixpath.head_of b).
Proof.
  induction a as [|x a IH]; [reflexivity|].
  change (String x a +:+ String "/" b) with (String x (a +:+ String "/" b)).
  cbn [posixpath.head_of]. rewrite IH, is_empty_app_cons.
  destruct (posixpath.is_sep x); reflexivity.
Qed.

Lemma head_of_no_sep (s : string) :
  no_sep s = true -> posixpath.head_of s = "".
Proof.
  induction s as [|a s IH]; [reflexivity|]. simpl.
  intros H. apply andb_true_iff in H as [Ha Hs].
  apply negb_true_iff in Ha. rewrite Ha, (IH Hs). reflexivity.
Qed.

Lemma rstrip_sep_app_sep (s : string) :
  posixpath.rstrip_sep (s +:+ "/") = posixpath.rstrip_sep s.
Proof.
  induction s as [|a s IH]; [reflexivity|].
  change (String a s +:+ "/") with (String a (s +:+ "/")).
  cbn [posixpath.rstrip_sep]. rewrite IH. reflexivity.
Qed.

Lemma rstrip_sep_id (s : string) :
  posixpath.endswith_sep s = false -> posixpath.rstrip_sep s = s.
Proof.
  induction s as [|a s IH]; [reflexivity|].
  destruct s as [|b s].
  - simpl. intros ->. reflexivity.
  - intros H. change (posixpath.endswith_sep (String b s) = false) in H.
    cbn [posixpath.rstrip_sep] in *. rewrite (IH H).
    rewrite andb_false_r. reflexivity.
Qed.

Lemma endswith_sep_cons (a : ascii) (s : string) :
  posixpath.is_empty s = false ->
  posixpath.endswith_sep (String a s) = posixpath.endswith_sep s.
Proof. destruct s; [discriminate | reflexivity]. Qed.

Lemma endswith_sep_app (a b : string) :
  posixpath.is_empty b = false ->
  posixpath.endswith_sep (a +:+ b) = posixpath.endswith_sep b.
Proof.
  intros Hb. induction a as [|x a IH]; [reflexivity|].
  change (String x a +:+ b) with (String x (a +:+ b)).
  rewrite endswith_sep_cons; [exact IH|].
  destruct a; [exact Hb | reflexivity].
Qed.

Lemma endswith_sep_no_sep (s : string) :
  no_sep s = true -> posixpath.endswith_sep s = false.
Proof.
  induction s as [|a s IH]; [reflexivity|].
  intros H. simpl in H. apply andb_true_iff in H as [Ha Hs].
  apply negb_true_iff in Ha.
  destruct s as [|b s]; [exact Ha|].
  rewrite endswith_sep_cons by reflexivity. apply IH. exact Hs.
Qed.

Lemma endswith_sep_join_sep (comps : list string) :
  Forall (fun comp => plain_component comp = true) comps ->
  posixpath.endswith_sep (posixpath.join_sep comps) = false.
Proof.
  induction comps as [|comp comps IH]; [reflexivity|]. intros Hall.
  apply Forall_cons in Hall as [Hcomp Hall].
  destruct comps as [|comp' comps].
  - apply endswith_sep_no_sep. apply plain_component_spec in Hcomp. tauto.
  - rewrite join_sep_cons.
    destruct (join_sep_head (comp' :: comps)) as (a & rest & Hj & _);
      [discriminate | exact Hall |].
    rewrite endswith_sep_app by reflexivity.
    rewrite endswith_sep_cons by (rewrite Hj; reflexivity).
    apply IH. exact Hall.
Qed.

(** [dirname] drops the last component of such a path. *)
Lemma dirname_plain (comps : list string) (name : string) :
  comps <> [] ->
  Forall (fun comp => plain_component comp = true) comps ->
  no_sep name = true ->
  posixpath.dirname (String "/" (posixpath.join_sep (comps ++ [name]))) =
  String "/" (posixpath.join_sep comps).
Proof.
  intros Hne Hall Hname.
  destruct (join_sep_head comps Hne Hall) as (a & rest & Hj & Ha).
  rewrite join_sep_snoc by exact Hne.
  unfold posixpath.dirname.
  change (String "/" (posixpath.join_sep comps +:+ String "/" name))
    with (String "/" (posixpath.join_sep comps) +:+ String "/" name).
  rewrite head_of_app_sep, (head_of_no_sep name Hname).
  rewrite is_empty_app_cons.
  assert (Hseps : posixpath.all_seps
                    (String "/" (posixpath.join_sep comps) +:+ "/") = false).
  { rewrite Hj. simpl. rewrite Ha. reflexivity. }
  rewrite Hseps. cbn [negb andb].
  rewrite rstrip_sep_app_sep. apply rstrip_sep_id.
  rewrite endswith_sep_cons by (rewrite Hj; reflexivity).
  apply endswith_sep_join_sep. exact Hall.
Qed.

Lemma filter_components (comps : list string) :
  Forall (fun comp => plain_component comp = true) comps ->
  filter (fun comp => pathlib.is_component comp = true) comps = comps.
Proof.
  induction 1 as [|comp comps Hcomp _ IH]; [reflexivity|].
  rewrite filter_cons, IH.
  apply plain_component_spec in Hcomp as (Hne & _ & Hdot & _).
  assert (Hc : pathlib.is_component comp = true).
  { unfold pathlib.is_component. rewrite Hdot.
    destruct comp; [discriminate | reflexivity]. }
  destruct (decide _); [reflexivity | contradiction].
Qed.

(** [Path] parses such a path into its components, and [str] prints it
    back. *)
Lemma Path_plain (comps : list string) :
  comps <> [] ->
  Forall (fun comp => plain_component comp = true) comps ->
  pathlib.Path (String "/" (posixpath.join_sep comps)) = pathlib.mkPath "/" comps
  /\ pathlib.fspath (pathlib.mkPath "/" comps) =
     String "/" (posixpath.join_sep comps).
Proof.
  intros Hne Hall.
  destruct (join_sep_head comps Hne Hall) as (a & rest & Hj & Ha).
  split; [|reflexivity].
  unfold pathlib.Path. cbn [posixpath.is_empty].
  assert (Hroot : pathlib.splitroot (String "/" (posixpath.join_sep comps)) =
                  ("/", posixpath.join_sep comps)).
  { rewrite Hj. simpl. rewrite Ha. reflexivity. }
  rewrite Hroot.
  rewrite split_sep_join_sep by (try apply plain_no_sep; assumption).
  rewrite filter_components by exact Hall. reflexivity.
Qed.

(** X8. Which file is opened. When the module file is
    [/c1/.../cn/name], written with plain components, [GITHUB_DIR] is the
    directory [/c1/.../cn] of the module, and the file handed to [open] is
    [/c1/.../cn/workflows/continuous-integration.yml]: the [workflows]
    directory next to the module. *)
Theorem X8_opened_file (w : World) (comps : list string) (name : string) :
  comps <> [] ->
  Forall (fun comp => plain_component comp = true) comps ->
  plain_component name = true ->
  module_file w = "/" +:+ posixpath.join_sep (comps ++ [name]) ->
  GITHUB_DIR w = "/" +:+ posixpath.join_sep comps
  /\ forall project_root,
       pathlib.fspath (workflow_path w project_root) =
       "/" +:+ posixpath.join_sep
                 (comps ++ ["workflows"; "continuous-integration.yml"]).
Proof.
  intros Hne Hall Hname Hfile.
  change ("/" +:+ posixpath.join_sep (comps ++ [name]))
    with (String "/" (posixpath.join_sep (comps ++ [name]))) in Hfile.
  assert (Hall' : Forall (fun comp => plain_component comp = true) (comps ++ [name])).
  { apply Forall_app. split; [exact Hall | constructor; [exact Hname | constructor]]. }
  assert (Hdir : GITHUB_DIR w = String "/" (posixpath.join_sep comps)).
  { unfold GITHUB_DIR, posixpath.abspath. rewrite Hfile. cbn [posixpath.isabs].
    change (posixpath.is_sep "/") with true. cbv iota.
    rewrite normpath_plain; [|destruct comps; discriminate | exact Hall'].
    apply dirname_plain; [exact Hne | exact Hall|].
    apply plain_component_spec in Hname. tauto. }
  split; [exact Hdir|]. intros project_root.
  assert (Hwp : WORKFLOW_PATH w =
                String "/" (posixpath.join_sep
                              (comps ++ ["workflows"; "continuous-integration.yml"]))).
  { unfold WORKFLOW_PATH. rewrite Hdir.
    change (comps ++ ["workflows"; "continuous-integration.yml"])
      with (comps ++ (["workflows"] ++ ["continuous-integration.yml"])).
    rewrite app_assoc.
    rewrite join_sep_snoc by (destruct comps; discriminate).
    rewrite join_sep_snoc by exact Hne.
    rewrite string_app_assoc. reflexivity. }
  rewrite workflow_path_absolute
    by (rewrite Hfile; apply orb_true_r).
  rewrite Hwp.
  destruct (Path_plain (comps ++ ["workflows"; "continuous-integration.yml"]))
    as [-> ->]; [destruct comps; discriminate | | reflexivity].
  apply Forall_app. split; [exact Hall|].
  repeat constructor.
Qed.

Lemma X8_witness :
  GITHUB_DIR (world_of []) =
    "/" +:+ posixpath.join_sep ["home"; "ci"; "rchain"; ".github"]
  /\ forall project_root,
       pathlib.fspath (workflow_path (world_of []) project_root) =
       "/" +:+ posixpath.join_sep
                 (["home"; "ci"; "rchain"; ".github"]
                  ++ ["workflows"; "continuous-integration.yml"]).
Proof.
  apply (X8_opened_file (world_of [])
           ["home"; "ci"; "rchain"; ".github"] "shared.py").
  - discriminate.
  - repeat constructor.
  - reflexivity.
  - reflexivity.
Defined.

(** X9. The project root prints back as it was given. When the string that
    [get_project_root] picks, the value of [PROJECT_ROOT] or else the
    working directory, is an absolute path [/c1/.../cn] of plain components,
    the result is the path with exactly these components and [str] of it is
    that string again. *)
Theorem X9_project_root_prints_back
    (w : World) (cwd : string) (comps : list string) :
  comps <> [] ->
  Forall (fun comp => plain_component comp = true) comps ->
  getcwd w = Some cwd ->
  default cwd (environ w !! "PROJECT_ROOT") = "/" +:+ posixpath.join_sep comps ->
  get_project_root w = inr (pathlib.mkPath "/" comps)
  /\ pathlib.fspath (pathlib.mkPath "/" comps) =
     default cwd (environ w !! "PROJECT_ROOT").
Proof.
  intros Hne Hall Hcwd Hvalue.
  destruct (Path_plain comps Hne Hall) as [Hparse Hprint].
  unfold get_project_root, os_getcwd, getenv. rewrite Hcwd. cbn [bind ret].
  rewrite Hvalue.
  change ("/" +:+ posixpath.join_sep comps)
    with (String "/" (posixpath.join_sep comps)).
  rewrite Hparse. split; [reflexivity | exact Hprint].
Qed.

Lemma X9_witness :
  get_project_root relocated_world =
    inr (pathlib.mkPath "/" ["srv"; "build"; "rchain"])
  /\ pathlib.fspath (pathlib.mkPath "/" ["srv"; "build"; "rchain"]) =
     default "/" (environ relocated_world !! "PROJECT_ROOT").
Proof.
  apply (X9_project_root_prints_back relocated_world "/"
           ["srv"; "build"; "rchain"]).
  - discriminate.
  - repeat constructor.
  - reflexivity.
  - vm_compute. reflexivity.
Defined.
